(** * INMET weather data scraper: a shallow embedding of [inmet_scraper.py]

    The program downloads one ZIP archive per year from the INMET portal,
    picks the member of station A652 (Rio de Janeiro), parses it as
    semicolon separated text and stores it as a parquet file.  A year whose
    parquet file is already on disk is skipped.

    The embedding keeps the shape of the Python code.  Everything the code
    calls outside of itself (the HTTP library, the ZIP reader, the CSV
    parser, the parquet writer, the clock) is a field of a [World]; the
    theorems quantify over every world, the examples run in concrete ones.
    The filesystem and the sequence of external calls are threaded through
    a state and exception monad [M]. *)

From Stdlib Require Import ZArith Strings.Byte Ascii.
From stdpp Require Import base option list strings pretty gmap.

Local Open Scope Z_scope.

(** ** Exceptions

    The handlers of [process_year] tell three families apart.  An exception
    is kept as the family it belongs to and the text [str(e)] gives. *)

Inductive ExnClass :=
  | RequestException   (* requests.exceptions.RequestException and subclasses *)
  | BadZipFile         (* zipfile.BadZipFile *)
  | NoDataError        (* polars.exceptions.NoDataError *)
  | OtherException.    (* any other subclass of Exception *)

Record Exn := mk_Exn { exn_class : ExnClass; exn_str : string }.

(** ** Data model *)

(** [class DownloadResult]: the two optional fields default to [None]. *)
Record DownloadResult := mk_DownloadResult {
  year : Z;
  success : bool;
  file_path : option string;
  error_message : option string
}.

(** What [requests.get] hands back: the status line and the body, whose
    retrieval ([response.content]) may itself fail. *)
Record Response := mk_Response {
  status_code : Z;
  reason : string;
  content : Exn + list byte
}.

(** An opened [zipfile.ZipFile]: the member names in archive order and the
    bytes of a member, or the exception reading it raises. *)
Record ZipFile := mk_ZipFile {
  namelist : list string;
  zip_open : string → Exn + list byte
}.

(** A parsed table: column names and rows of text cells ([None] is null). *)
Record DataFrame := mk_DataFrame {
  columns : list string;
  rows : list (list (option string))
}.

(** What sits at a path of the filesystem. *)
Inductive Node :=
  | Directory
  | ParquetFile (df : DataFrame)   (* a complete parquet file holding [df] *)
  | Truncated.                     (* a file whose writing was cut short *)

(** The calls the program makes to the outside, in order of occurrence. *)
Inductive Level := INFO | ERROR.

Inductive Event :=
  | HttpGet (url : string)
  | ReadCsv (separator : ascii) (encoding : string) (skip_rows : nat)
  | WriteParquet (path : string)
  | Makedirs (path : string)
  | Log (level : Level) (msg : string).

Record State := mk_State {
  fs : gmap string Node;
  trace : list Event
}.

(** The behaviour of the libraries and of the machine. *)
Record World := mk_World {
  requests_get : State → string → Exn + Response;
  zipfile_ZipFile : list byte → Exn + ZipFile;
  pl_read_csv : list byte → ascii → string → nat → Exn + DataFrame;
  write_parquet : DataFrame → string → gmap string Node → gmap string Node * option Exn;
  os_makedirs : string → gmap string Node → gmap string Node * option Exn;
  datetime_now_year : State → Z
}.

(** ** The state and exception monad *)

Definition M (A : Type) : Type := State → State * (Exn + A).

Global Instance M_ret : MRet M := λ A x s, (s, inr x).

Global Instance M_bind : MBind M := λ A B f m s,
  match m s with
  | (s', inr x) => f x s'
  | (s', inl e) => (s', inl e)
  end.

Definition raise {A : Type} (e : Exn) : M A := λ s, (s, inl e).

(** [try: body except e: handler e] *)
Definition try_except {A : Type} (body : M A) (handler : Exn → M A) : M A := λ s,
  match body s with
  | (s', inl e) => handler e s'
  | (s', inr x) => (s', inr x)
  end.

(** A pure library call that returns or raises. *)
Definition call {A : Type} (r : Exn + A) : M A := λ s, (s, r).

Definition emit (e : Event) : M unit := λ s,
  (mk_State (fs s) (trace s ++ [e]), inr ()).

(** A library call that acts on the filesystem. *)
Definition fs_call (act : gmap string Node → gmap string Node * option Exn) : M unit := λ s,
  match act (fs s) with
  | (fs', None) => (mk_State fs' (trace s), inr ())
  | (fs', Some e) => (mk_State fs' (trace s), inl e)
  end.

(** ** Strings and paths *)

(** [str(n)] and [f"{n}"] for an [int]. *)
Definition str (n : Z) : string := pretty n.

(** [needle in hay] *)
Fixpoint str_in (needle hay : string) : bool :=
  String.prefix needle hay ||
  match hay with
  | EmptyString => false
  | String _ rest => str_in needle rest
  end.

(** [s.endswith("/")] *)
Fixpoint endswith_sep (s : string) : bool :=
  match s with
  | EmptyString => false
  | String c EmptyString => bool_decide (c = "/"%char)
  | String _ rest => endswith_sep rest
  end.

(** [os.path.join(a, b)] of [posixpath]. *)
Definition os_path_join (a b : string) : string :=
  if String.prefix "/" b then b
  else if bool_decide (a = "") || endswith_sep a then a +:+ b
  else a +:+ "/" +:+ b.

(** ** Library calls as monadic actions *)

Section Scraper.

Variable w : World.

Definition os_path_exists (path : string) : M bool := λ s,
  (s, inr (bool_decide (is_Some (fs s !! path)))).

Definition get (url : string) : M Response := λ s,
  (mk_State (fs s) (trace s ++ [HttpGet url]), requests_get w s url).

(** [response.raise_for_status()] *)
Definition raise_for_status (url : string) (response : Response) : M unit :=
  let status := status_code response in
  if bool_decide (400 ≤ status < 500) then
    raise (mk_Exn RequestException
             (str status +:+ " Client Error: " +:+ reason response +:+ " for url: " +:+ url))
  else if bool_decide (500 ≤ status < 600) then
    raise (mk_Exn RequestException
             (str status +:+ " Server Error: " +:+ reason response +:+ " for url: " +:+ url))
  else mret ().

Definition read_csv (f : list byte) (separator : ascii) (encoding : string)
    (skip_rows : nat) : M DataFrame :=
  emit (ReadCsv separator encoding skip_rows);;
  call (pl_read_csv w f separator encoding skip_rows).

Definition df_write_parquet (df : DataFrame) (path : string) : M unit :=
  emit (WriteParquet path);;
  fs_call (write_parquet w df path).

Definition logger_info (msg : string) : M unit := emit (Log INFO msg).
Definition logger_error (msg : string) : M unit := emit (Log ERROR msg).

(** ** [class INMETScraper] *)

Record INMETScraper := mk_INMETScraper {
  base_url : string;
  output_dir : string;
  start_year : Z;
  current_year : Z;
  station_identifier : string
}.

(** [INMETScraper.__init__] *)
Definition __init__ (output_dir : string) (start_year : Z) : M INMETScraper :=
  now ← (λ s, (s, inr (datetime_now_year w s)));
  emit (Makedirs output_dir);;
  fs_call (os_makedirs w output_dir);;
  mret {| base_url := "https://portal.inmet.gov.br/uploads/dadoshistoricos";
          output_dir := output_dir;
          start_year := start_year;
          current_year := now;
          station_identifier := "INMET_SE_RJ_A652_RIO DE JANEIRO" |}.

(** The path [process_year] computes first. *)
Definition output_file (self : INMETScraper) (year : Z) : string :=
  os_path_join (output_dir self) ("RJ_A652_" +:+ str year +:+ ".parquet").

(** [INMETScraper.process_year] *)
Definition process_year (self : INMETScraper) (year : Z) : M DownloadResult :=
  let output_file := output_file self year in
  present ← os_path_exists output_file;
  if present : bool then
    logger_info ("File for " +:+ str year +:+ " already exists, skipping...");;
    mret (mk_DownloadResult year true (Some output_file) None)
  else
    try_except
      (let url := base_url self +:+ "/" +:+ str year +:+ ".zip" in
       logger_info ("Downloading data for " +:+ str year +:+ "...");;
       response ← get url;
       raise_for_status url response;;
       payload ← call (content response);
       zip_ref ← call (zipfile_ZipFile w payload);
       let rio_files :=
         filter (λ name, str_in (station_identifier self) name = true) (namelist zip_ref) in
       match rio_files with
       | [] =>
           mret (mk_DownloadResult year false None
                   (Some ("No Rio de Janeiro A652 station data found for " +:+ str year)))
       | station_file :: _ =>
           f ← call (zip_open zip_ref station_file);
           df ← read_csv f ";"%char "latin1" 8;
           df_write_parquet df output_file;;
           logger_info ("Successfully extracted Rio data for " +:+ str year);;
           mret (mk_DownloadResult year true (Some output_file) None)
       end)
      (λ e,
         match exn_class e with
         | RequestException =>
             let error_msg := "Error downloading data for " +:+ str year +:+ ": " +:+ exn_str e in
             logger_error error_msg;;
             mret (mk_DownloadResult year false None (Some error_msg))
         | BadZipFile | NoDataError =>
             let error_msg := "Error processing ZIP file for " +:+ str year +:+ ": " +:+ exn_str e in
             logger_error error_msg;;
             mret (mk_DownloadResult year false None (Some error_msg))
         | OtherException =>
             let error_msg := "Unexpected error processing " +:+ str year +:+ ": " +:+ exn_str e in
             logger_error error_msg;;
             mret (mk_DownloadResult year false None (Some error_msg))
         end).

End Scraper.

Section Batch.

Variable w : World.

(** [range(a, b)] *)
Definition range (a b : Z) : list Z := seqZ a (b - a).

(** The loop of [process_all_years]: [results] is the list built so far. *)
Fixpoint for_year_in (self : INMETScraper) (years : list Z)
    (results : list DownloadResult) : M (list DownloadResult) :=
  match years with
  | [] => mret results
  | year :: years =>
      result ← process_year w self year;
      for_year_in self years (results ++ [result])
  end.

(** [INMETScraper.process_all_years] *)
Definition process_all_years (self : INMETScraper) : M (list DownloadResult) :=
  for_year_in self (range (start_year self) (current_year self + 1)) [].


End Batch.

(** ** The result partitioner *)

(** Truth value of an [Optional[str]]: [None] and the empty string are false. *)
Definition truthy (o : option string) : bool :=
  match o with
  | Some text => negb (String.eqb text "")
  | None => false
  end.

(** [INMETScraper.get_successful_downloads] *)
Definition get_successful_downloads (results : list DownloadResult) : list (option string) :=
  file_path <$> filter (λ result, success result && truthy (file_path result) = true) results.

(** [INMETScraper.get_failed_downloads] *)
Definition get_failed_downloads (results : list DownloadResult) : list (Z * option string) :=
  (λ result, (year result, error_message result)) <$>
    filter (λ result, negb (success result) && truthy (error_message result) = true) results.

(** The URLs fetched in a trace. *)
Definition network_calls (t : list Event) : list string :=
  omap (λ e, match e with HttpGet url => Some url | _ => None end) t.

(** The state in which [process_year] issues its request: the
    "Downloading" line has been logged. *)
Definition downloading (year : Z) (s : State) : State :=
  mk_State (fs s) (trace s ++ [Log INFO ("Downloading data for " +:+ str year +:+ "...")]).

(** The URL of a year's archive. *)
Definition archive_url (self : INMETScraper) (year : Z) : string :=
  base_url self +:+ "/" +:+ str year +:+ ".zip".

(** The members [process_year] keeps. *)
Definition rio_files (self : INMETScraper) (zip_ref : ZipFile) : list string :=
  filter (λ name, str_in (station_identifier self) name = true) (namelist zip_ref).

(** ** A reference reading of [polars.read_csv] and concrete worlds

    The examples need a parser that runs.  This one keeps every cell as
    text: the bytes are decoded one byte per character (latin1), the first
    [skip_rows] lines are dropped, the next line names the columns and the
    remaining lines are the rows.  Nothing left after the skipped lines is
    a [NoDataError]; a row with more fields than columns is an error of
    another class; a row with fewer fields is filled with nulls. *)

(** [text.split(sep)] *)
Fixpoint split (sep : ascii) (text : string) : list string :=
  match text with
  | EmptyString => [""]
  | String c rest =>
      if Ascii.eqb c sep then "" :: split sep rest
      else match split sep rest with
           | [] => [String c ""]
           | field :: fields => String c field :: fields
           end
  end.

(** The lines of a text; a final newline does not open another line. *)
Definition splitlines (text : string) : list string :=
  let parts := split "010"%char text in
  match last parts with
  | Some EmptyString => removelast parts
  | _ => parts
  end.

Definition unlines (lines : list string) : string :=
  foldr (λ line text, line +:+ String "010"%char text) "" lines.

Definition pad_row (n : nat) (cells : list string) : list (option string) :=
  (Some <$> cells) ++ replicate (n - length cells)%nat None.

Definition reference_read_csv (f : list byte) (separator : ascii) (encoding : string)
    (skip_rows : nat) : Exn + DataFrame :=
  match drop skip_rows (splitlines (String.string_of_list_byte f)) with
  | [] => inl (mk_Exn NoDataError "empty CSV")
  | header :: data =>
      let names := split separator header in
      if existsb (λ line, (length names <? length (split separator line))%nat) data
      then inl (mk_Exn OtherException "found more fields than defined in 'Schema'")
      else inr (mk_DataFrame names (pad_row (length names) ∘ split separator <$> data))
  end.

(** A write that completes. *)
Definition write_ok (df : DataFrame) (path : string) (files : gmap string Node)
    : gmap string Node * option Exn :=
  (<[path := ParquetFile df]> files, None).

(** A write on a full disk.  The writer creates the file and then
    serialises the table into it, so the file is there when the error
    comes, and nothing removes it. *)
Definition write_disk_full (df : DataFrame) (path : string) (files : gmap string Node)
    : gmap string Node * option Exn :=
  (<[path := Truncated]> files, Some (mk_Exn OtherException "No space left on device (os error 28)")).

(** A write that is refused before any file is created. *)
Definition write_denied (df : DataFrame) (path : string) (files : gmap string Node)
    : gmap string Node * option Exn :=
  (files, Some (mk_Exn OtherException "Permission denied (os error 13)")).

Definition station_member : string :=
  "2020/INMET_SE_RJ_A652_RIO DE JANEIRO - FORTE DE COPACABANA_01-01-2020_A_31-12-2020.CSV".

Definition other_member : string :=
  "2020/INMET_SE_SP_A701_SAO PAULO - MIRANTE_01-01-2020_A_31-12-2020.CSV".

(** A member in the layout of the portal: eight lines about the station,
    the column names, the measurements. *)
Definition member_8 : list byte :=
  String.list_byte_of_string (unlines
    [ "REGIAO:;SE"; "UF:;RJ"; "ESTACAO:;RIO DE JANEIRO"; "CODIGO (WMO):;A652";
      "LATITUDE:;-22,98"; "LONGITUDE:;-43,19"; "ALTITUDE:;25,59"; "DATA DE FUNDACAO:;17/05/07";
      "Data;Temp"; "2020/01/01;24,1"; "2020/01/02;25,3" ]).

(** A member with ten lines before the column names. *)
Definition member_10 : list byte :=
  String.list_byte_of_string (unlines
    [ "REGIAO:;SE"; "UF:;RJ"; "ESTACAO:;RIO DE JANEIRO"; "CODIGO (WMO):;A652";
      "LATITUDE:;-22,98"; "LONGITUDE:;-43,19"; "ALTITUDE:;25,59"; "DATA DE FUNDACAO:;17/05/07";
      "FONTE:;INMET"; "VERSAO:;1";
      "Data;Temp"; "2020/01/01;24,1"; "2020/01/02;25,3" ]).

(** A second member of the station, to see which one is read. *)
Definition member_later : list byte :=
  String.list_byte_of_string (unlines
    [ "1"; "2"; "3"; "4"; "5"; "6"; "7"; "8"; "Data;Chuva"; "2020/07/01;0,2" ]).

(** The archive of 2020 as the examples see it: another station, [member]
    and a later file of the station. *)
Definition archive_2020 (member : list byte) : ZipFile :=
  mk_ZipFile [other_member; station_member; station_member +:+ ".bak"]
    (λ name, if String.eqb name station_member then inr member
             else if String.eqb name (station_member +:+ ".bak") then inr member_later
             else inr []).

(** The archive of 2021: the station is missing. *)
Definition archive_2021 : ZipFile := mk_ZipFile [other_member] (λ _, inr []).

(** The portal as the examples see it: archives for 2020 and 2021, any
    other year is not found.  Archives travel as a tag, since the ZIP
    format itself is not modelled. *)
Definition portal_world (member : list byte)
    (write : DataFrame → string → gmap string Node → gmap string Node * option Exn) : World :=
  {| requests_get := λ _ url,
       if String.eqb url "https://portal.inmet.gov.br/uploads/dadoshistoricos/2020.zip"
       then inr (mk_Response 200 "OK" (inr (String.list_byte_of_string "zip:2020")))
       else if String.eqb url "https://portal.inmet.gov.br/uploads/dadoshistoricos/2021.zip"
       then inr (mk_Response 200 "OK" (inr (String.list_byte_of_string "zip:2021")))
       else inr (mk_Response 404 "Not Found" (inr []));
     zipfile_ZipFile := λ payload,
       let tag := String.string_of_list_byte payload in
       if String.eqb tag "zip:2020" then inr (archive_2020 member)
       else if String.eqb tag "zip:2021" then inr archive_2021
       else inl (mk_Exn BadZipFile "File is not a zip file");
     pl_read_csv := reference_read_csv;
     write_parquet := write;
     os_makedirs := λ path files, (<[path := Directory]> files, None);
     datetime_now_year := λ _, 2021 |}.

Definition empty_state : State := mk_State ∅ [].

(** The scraper [main] builds, in a year-2021 world. *)
Definition main_scraper : INMETScraper :=
  {| base_url := "https://portal.inmet.gov.br/uploads/dadoshistoricos";
     output_dir := "rio_a652_station_data";
     start_year := 2019;
     current_year := 2021;
     station_identifier := "INMET_SE_RJ_A652_RIO DE JANEIRO" |}.

Definition table_8 : DataFrame :=
  mk_DataFrame ["Data"; "Temp"]
    [ [Some "2020/01/01"; Some "24,1"]; [Some "2020/01/02"; Some "25,3"] ].

(** What [reference_read_csv] makes of [member_10] with eight lines skipped. *)
Definition table_10_skip_8 : DataFrame :=
  mk_DataFrame ["FONTE:"; "INMET"]
    [ [Some "VERSAO:"; Some "1"]; [Some "Data"; Some "Temp"];
      [Some "2020/01/01"; Some "24,1"]; [Some "2020/01/02"; Some "25,3"] ].




(** The outcomes of the years 2019 to 2021 in [portal_world]. *)
Definition outcome_2019 : DownloadResult :=
  mk_DownloadResult 2019 false None
    (Some ("Error downloading data for 2019: 404 Client Error: Not Found for url: " +:+
           "https://portal.inmet.gov.br/uploads/dadoshistoricos/2019.zip")).

Definition outcome_2020 : DownloadResult :=
  mk_DownloadResult 2020 true (Some "rio_a652_station_data/RJ_A652_2020.parquet") None.

Definition outcome_2021 : DownloadResult :=
  mk_DownloadResult 2021 false None
    (Some "No Rio de Janeiro A652 station data found for 2021").

(** The worlds of the examples. *)
Definition portal : World := portal_world member_8 write_ok.
Definition portal_ten_lines : World := portal_world member_10 write_ok.
Definition portal_disk_full : World := portal_world member_8 write_disk_full.

(** The state a first call for 2020 leaves in [portal]. *)
Definition after_2020 : State := (process_year portal main_scraper 2020 empty_state).1.


(** A scraper built in 2021 for the years from 2030 on. *)
Definition late_scraper : INMETScraper :=
  {| base_url := "https://portal.inmet.gov.br/uploads/dadoshistoricos";
     output_dir := "rio_a652_station_data";
     start_year := 2030;
     current_year := 2021;
     station_identifier := "INMET_SE_RJ_A652_RIO DE JANEIRO" |}.

(** ** [main] and what the traces are read for *)

(** The message a handler of [process_year] builds for the exception it caught. *)
Definition handler_message (year : Z) (e : Exn) : string :=
  match exn_class e with
  | RequestException => "Error downloading data for " +:+ str year +:+ ": " +:+ exn_str e
  | BadZipFile | NoDataError => "Error processing ZIP file for " +:+ str year +:+ ": " +:+ exn_str e
  | OtherException => "Unexpected error processing " +:+ str year +:+ ": " +:+ exn_str e
  end.

(** The paths handed to the parquet writer in a trace. *)
Definition write_calls (t : list Event) : list string :=
  omap (λ e, match e with WriteParquet path => Some path | _ => None end) t.


(** [f"{error}"] for an [Optional[str]]. *)
Definition format_optional (error : option string) : string :=
  match error with
  | Some text => text
  | None => "None"
  end.

(** [main].  Its value is the sequence of strings it hands to [print]. *)
Definition main (w : World) : M (list string) :=
  scraper ← __init__ w "rio_a652_station_data" 2019;
  results ← process_all_years w scraper;
  let successful := get_successful_downloads results in
  let failed := get_failed_downloads results in
  mret ([ String "010" "Processing Summary:";
          "Successfully processed: " +:+ str (Z.of_nat (length successful)) +:+ " files";
          "Failed processing: " +:+ str (Z.of_nat (length failed)) +:+ " files" ] ++
        match failed with
        | [] => []
        | _ :: _ =>
            String "010" "Failed years and reasons:" ::
            ((λ entry, str entry.1 +:+ ": " +:+ format_optional entry.2) <$> failed)
        end).

(** The outcome [process_year] returns for a year whose file is on disk or
    has just been written. *)
Definition success_outcome (self : INMETScraper) (year : Z) : DownloadResult :=
  mk_DownloadResult year true (Some (output_file self year)) None.

(** An outcome that neither projection keeps. *)
Definition dropped (result : DownloadResult) : bool :=
  (success result && negb (truthy (file_path result))) ||
  (negb (success result) && negb (truthy (error_message result))).

(** A state in which the files of 2019 to 2021 are on disk. *)
Definition all_stored : State :=
  mk_State
    (<["rio_a652_station_data/RJ_A652_2019.parquet" := ParquetFile table_8]>
       (<["rio_a652_station_data/RJ_A652_2020.parquet" := ParquetFile table_8]>
          (<["rio_a652_station_data/RJ_A652_2021.parquet" := ParquetFile table_8]> ∅)))
    [].

(** A world in which the output directory cannot be created. *)
Definition portal_readonly : World :=
  {| requests_get := requests_get portal;
     zipfile_ZipFile := zipfile_ZipFile portal;
     pl_read_csv := reference_read_csv;
     write_parquet := write_denied;
     os_makedirs := λ path files,
       (files, Some (mk_Exn OtherException "[Errno 30] Read-only file system"));
     datetime_now_year := λ _, 2021 |}.

(** A world whose portal is down, and one that sends something that is not
    an archive. *)
Definition portal_down : World :=
  {| requests_get := λ _ _, inl (mk_Exn RequestException "Connection refused");
     zipfile_ZipFile := zipfile_ZipFile portal;
     pl_read_csv := reference_read_csv;
     write_parquet := write_ok;
     os_makedirs := os_makedirs portal;
     datetime_now_year := λ _, 2021 |}.

Definition portal_garbled : World :=
  {| requests_get := λ _ _, inr (mk_Response 200 "OK" (inr (String.list_byte_of_string "<html>")));
     zipfile_ZipFile := zipfile_ZipFile portal;
     pl_read_csv := reference_read_csv;
     write_parquet := write_ok;
     os_makedirs := os_makedirs portal;
     datetime_now_year := λ _, 2021 |}.


(** * Properties *)

(** Unfolds the monadic actions of [process_year] down to state passing. *)
Ltac unfold_actions :=
  unfold process_year, try_except, os_path_exists, get, raise_for_status, read_csv,
    df_write_parquet, logger_info, logger_error, emit, fs_call, call, raise,
    mbind, mret, M_bind, M_ret in *.

(** ** The string and range helpers meet their Python meaning *)

Lemma prefix_spec (a text : string) :
  String.prefix a text = true ↔ ∃ post, text = a +:+ post.
Proof.
  revert a. induction text as [|d text IH]; intros [|c a]; simpl.
  - split; [by exists "" | done].
  - split; [done | by intros [? ?]].
  - split; [by eexists | done].
  - destruct (Ascii.ascii_dec c d) as [->|Hne].
    + rewrite IH. split; intros [post H]; exists post; [by rewrite H | by injection H].
    + split; [done | intros [post H]; by injection H].
Qed.

Lemma str_in_unfold (needle hay : string) :
  str_in needle hay =
    String.prefix needle hay ||
    match hay with EmptyString => false | String _ rest => str_in needle rest end.
Proof. by destruct hay. Qed.

(** [needle in hay] holds exactly when [hay] is [pre + needle + post]. *)
Lemma str_in_spec (needle hay : string) :
  str_in needle hay = true ↔ ∃ pre post, hay = pre +:+ needle +:+ post.
Proof.
  induction hay as [|c hay IH]; rewrite str_in_unfold, orb_true_iff, prefix_spec.
  - split.
    + intros [[post ->] | ?]; [by exists "", post | done].
    + intros (pre & post & H). left. destruct pre; [by exists post | done].
  - rewrite IH. split.
    + intros [[post ->] | (pre & post & ->)]; [by exists "", post|].
      by exists (String c pre), post.
    + intros (pre & post & H). destruct pre as [|d pre]; simpl in H.
      * left. by exists post.
      * right. exists pre, post. by injection H.
Qed.

(** [s.endswith("/")] holds exactly when [s] is [pre + "/"]. *)
Lemma endswith_sep_spec (s : string) :
  endswith_sep s = true ↔ ∃ pre, s = pre +:+ "/".
Proof.
  induction s as [|c s IH].
  - split; [done | intros [[|??] ?]; done].
  - destruct s as [|d s].
    + simpl. rewrite bool_decide_eq_true. split.
      * intros ->. by exists "".
      * intros [[|e pre] H]; simpl in H; [by injection H|].
        injection H as _ H. by destruct pre.
    + change (endswith_sep (String c (String d s))) with (endswith_sep (String d s)).
      rewrite IH. split.
      * intros [pre ->]. by exists (String c pre).
      * intros [[|e pre] H]; simpl in H; [done|]. exists pre. by injection H.
Qed.

(** [range(a, b)] holds the integers from [a] up to, not including, [b]. *)
Lemma elem_of_range (a b y : Z) : y ∈ range a b ↔ a ≤ y < b.
Proof. unfold range. rewrite elem_of_seqZ. lia. Qed.

(** ** Outcomes of [process_year] *)




Lemma network_calls_app (t1 t2 : list Event) :
  network_calls (t1 ++ t2) = network_calls t1 ++ network_calls t2.
Proof. unfold network_calls. apply omap_app. Qed.

Section Year.

Context (w : World).

(** Step 1: a file at the output path ends the call at once. *)
Lemma process_year_present self y s :
  is_Some (fs s !! output_file self y) →
  process_year w self y s =
    (mk_State (fs s)
       (trace s ++ [Log INFO ("File for " +:+ str y +:+ " already exists, skipping...")]),
     inr (mk_DownloadResult y true (Some (output_file self y)) None)).
Proof.
  intros H. unfold_actions. by rewrite bool_decide_eq_true_2.
Qed.

(** Steps 2 to 4: without the file the call ends in one of two shapes, and
    only the parquet writer touches the filesystem. *)
Lemma process_year_absent self y s :
  fs s !! output_file self y = None →
  ∃ s' r, process_year w self y s = (s', inr r) ∧
    ((r = mk_DownloadResult y true (Some (output_file self y)) None ∧
      ∃ df, write_parquet w df (output_file self y) (fs s) = (fs s', None)) ∨
     (∃ m, r = mk_DownloadResult y false None (Some m) ∧ m ≠ "" ∧
        (fs s' = fs s ∨
         ∃ df e, write_parquet w df (output_file self y) (fs s) = (fs s', Some e)))).
Proof.
  intros H. unfold_actions.
  rewrite bool_decide_eq_false_2 by (rewrite H; by intros [? ?]).
  cbn -[String.append str].
  repeat case_match; simplify_eq/=; eexists _, _; (split; [reflexivity|]); eauto 10.
  all: right; eexists; split; [reflexivity|]; split; [done|]; eauto 10.
Qed.


(** Every call returns, with one of the two shapes of outcome. *)
Lemma process_year_returns self y s :
  ∃ s' r, process_year w self y s = (s', inr r) ∧
    (r = mk_DownloadResult y true (Some (output_file self y)) None ∨
     ∃ m, r = mk_DownloadResult y false None (Some m) ∧ m ≠ "").
Proof.
  destruct (fs s !! output_file self y) as [n|] eqn:E.
  - eexists _, _. split; [apply process_year_present; by rewrite E | by left].
  - destruct (process_year_absent self y s E) as (s' & r & Hrun & Hr).
    exists s', r. split; [done|]. destruct Hr as [[-> _] | (m & -> & ? & _)]; eauto.
Qed.

Lemma process_year_shape self y s s' r :
  process_year w self y s = (s', inr r) →
  r = mk_DownloadResult y true (Some (output_file self y)) None ∨
  ∃ m, r = mk_DownloadResult y false None (Some m) ∧ m ≠ "".
Proof.
  intros Hrun. destruct (process_year_returns self y s) as (s1 & r1 & H1 & Hr).
  rewrite Hrun in H1. by simplify_eq.
Qed.

End Year.

Section YearClaims.

Context (w : World).

(** C1 (amended).  The output path of a year is
    [os.path.join(output_dir, "RJ_A652_{year}.parquet")]; for an
    [output_dir] that is not empty and does not end in a slash this is
    [{output_dir}/RJ_A652_{year}.parquet].  Every success outcome of
    [process_year] carries this path, and it is the path whose presence
    ends the call at its first step. *)
Theorem output_path_of_year self y s s' r :
  output_dir self ≠ "" →
  endswith_sep (output_dir self) = false →
  process_year w self y s = (s', inr r) →
  success r = true →
  output_file self y = output_dir self +:+ "/RJ_A652_" +:+ str y +:+ ".parquet" ∧
  file_path r = Some (output_dir self +:+ "/RJ_A652_" +:+ str y +:+ ".parquet") ∧
  (is_Some (fs s !! (output_dir self +:+ "/RJ_A652_" +:+ str y +:+ ".parquet")) →
   s' = mk_State (fs s)
          (trace s ++ [Log INFO ("File for " +:+ str y +:+ " already exists, skipping...")])).
Proof.
  intros Hdir Hsep Hrun Hok.
  assert (output_file self y = output_dir self +:+ "/RJ_A652_" +:+ str y +:+ ".parquet") as Hpath.
  { unfold output_file, os_path_join. simpl String.prefix.
    rewrite Hsep, bool_decide_eq_false_2 by done. reflexivity. }
  rewrite <- Hpath. split; [done|]. split.
  - destruct (process_year_shape w self y s s' r Hrun) as [-> | (m & -> & _)]; [done|].
    discriminate Hok.
  - intros Hfile. rewrite (process_year_present w self y s Hfile) in Hrun. by simplify_eq.
Qed.

(** C2 (amended).  When the file is absent, the archive downloads and
    opens, and [station_file] is the first member whose name contains the
    station identifier, [process_year] reads that member alone, as text
    separated by semicolons in latin1 with exactly 8 leading lines skipped,
    hands the table to the parquet writer at the output path and returns
    the success outcome. *)
Theorem parse_and_write self y s response payload zip_ref station_file others f df files :
  fs s !! output_file self y = None →
  requests_get w (downloading y s) (archive_url self y) = inr response →
  ¬ (400 ≤ status_code response < 600) →
  content response = inr payload →
  zipfile_ZipFile w payload = inr zip_ref →
  rio_files self zip_ref = station_file :: others →
  zip_open zip_ref station_file = inr f →
  pl_read_csv w f ";"%char "latin1" 8 = inr df →
  write_parquet w df (output_file self y) (fs s) = (files, None) →
  process_year w self y s =
    (mk_State files
       (trace s ++
          [ Log INFO ("Downloading data for " +:+ str y +:+ "...");
            HttpGet (archive_url self y);
            ReadCsv ";" "latin1" 8;
            WriteParquet (output_file self y);
            Log INFO ("Successfully extracted Rio data for " +:+ str y) ]),
     inr (mk_DownloadResult y true (Some (output_file self y)) None)).
Proof.
  unfold downloading, archive_url, rio_files.
  intros Hnone Hget Hstatus Hcontent Hzip Hfiles Hopen Hcsv Hwrite.
  unfold_actions.
  rewrite bool_decide_eq_false_2 by (rewrite Hnone; by intros [? ?]).
  cbn -[String.append str]. rewrite Hget.
  rewrite !bool_decide_eq_false_2 by lia.
  rewrite Hcontent, Hzip, Hfiles, Hopen. cbn -[String.append str].
  rewrite Hcsv. cbn -[String.append str]. rewrite Hwrite.
  cbn -[String.append str]. rewrite <- !(assoc_L (++)). reflexivity.
Qed.

(** C3.  An outcome of [process_year] is a success exactly when it has a
    path and no message, a failure exactly when it has a message and no
    path, and it has exactly one of the two. *)
Theorem outcome_exclusive self y s s' r :
  process_year w self y s = (s', inr r) →
  (success r = true ↔ is_Some (file_path r) ∧ error_message r = None) ∧
  (success r = false ↔ is_Some (error_message r) ∧ file_path r = None) ∧
  (is_Some (file_path r) ↔ error_message r = None).
Proof.
  intros Hrun.
  destruct (process_year_shape w self y s s' r Hrun) as [-> | (m & -> & _)]; simpl;
    repeat split; try done; try (by eexists); intros [[? ?] ?] || intros [? ?]; done.
Qed.


End YearClaims.

Section ErrorClaims.

Context (w : World).


(** C7.  When the file is absent, the archive downloads and opens but no
    member name contains the station identifier, [process_year] returns
    the failure outcome with the message of the missing station, having
    written nothing. *)
Theorem no_station_data self y s response payload zip_ref :
  fs s !! output_file self y = None →
  requests_get w (downloading y s) (archive_url self y) = inr response →
  ¬ (400 ≤ status_code response < 600) →
  content response = inr payload →
  zipfile_ZipFile w payload = inr zip_ref →
  rio_files self zip_ref = [] →
  ∃ s', process_year w self y s =
    (s', inr (mk_DownloadResult y false None
                (Some ("No Rio de Janeiro A652 station data found for " +:+ str y)))) ∧
    fs s' = fs s.
Proof.
  unfold downloading, archive_url, rio_files.
  intros Hnone Hget Hstatus Hcontent Hzip Hfiles.
  unfold_actions.
  rewrite bool_decide_eq_false_2 by (rewrite Hnone; by intros [? ?]).
  cbn -[String.append str]. rewrite Hget.
  rewrite !bool_decide_eq_false_2 by lia.
  rewrite Hcontent, Hzip, Hfiles. cbn -[String.append str].
  eexists. split; reflexivity.
Qed.


End ErrorClaims.

Section BatchClaims.

Context (w : World).



(** C10.  A scraper constructed with a [start_year] after the year the
    clock shows at construction has an empty range: [process_all_years]
    returns the empty list and leaves the state, filesystem and trace of
    calls alike, as it was. *)
Theorem empty_range out start s0 s1 self s :
  __init__ w out start s0 = (s1, inr self) →
  datetime_now_year w s0 < start →
  process_all_years w self s = (s, inr []).
Proof.
  intros Hinit Hlt.
  assert (start_year self = start ∧ current_year self = datetime_now_year w s0) as [Hs Hc].
  { unfold __init__, emit, fs_call, mbind, mret, M_bind, M_ret in Hinit. simpl in Hinit.
    destruct (os_makedirs w out (fs s0)) as [files [e|]]; by simplify_eq. }
  unfold process_all_years, range. rewrite Hs, Hc.
  rewrite seqZ_nil by lia. reflexivity.
Qed.

End BatchClaims.

Section Partition.



End Partition.

(** * Concrete runs *)

(** C1, as worded, fails: in the year 2020 the success outcome carries
    [rio_a652_station_data/RJ_A652_2020.parquet], not
    [rio_a652_station_data/A652_2020.parquet]. *)
Lemma file_name_counterexample :
  ∃ r, (process_year portal main_scraper 2020 empty_state).2 = inr r ∧ success r = true ∧
       file_path r = Some "rio_a652_station_data/RJ_A652_2020.parquet" ∧
       file_path r ≠ Some (output_dir main_scraper +:+ "/A652_2020.parquet").
Proof.
  exists outcome_2020. split; [vm_compute; reflexivity|]. split; [reflexivity|].
  split; [reflexivity|]. vm_compute. discriminate.
Qed.

Lemma output_path_of_year_witness :
  output_file main_scraper 2020 = "rio_a652_station_data" +:+ "/RJ_A652_" +:+ str 2020 +:+ ".parquet" ∧
  file_path outcome_2020 = Some ("rio_a652_station_data" +:+ "/RJ_A652_" +:+ str 2020 +:+ ".parquet") ∧
  (is_Some (fs empty_state !! ("rio_a652_station_data" +:+ "/RJ_A652_" +:+ str 2020 +:+ ".parquet")) →
   after_2020 = mk_State (fs empty_state)
          (trace empty_state ++ [Log INFO ("File for " +:+ str 2020 +:+ " already exists, skipping...")])).
Proof.
  apply (output_path_of_year portal main_scraper 2020 empty_state after_2020 outcome_2020).
  - discriminate.
  - reflexivity.
  - vm_compute. reflexivity.
  - reflexivity.
Defined.

(** C2, as worded, fails: a member with ten lines before the column names
    is read with eight lines skipped, so the ninth line names the columns
    of the stored table; and of two members of the station only the first
    is read. *)
Lemma skip_rows_counterexample :
  reference_read_csv member_10 ";"%char "latin1" 10 = inr table_8 ∧
  rio_files main_scraper (archive_2020 member_10) = [station_member; station_member +:+ ".bak"] ∧
  (process_year portal_ten_lines main_scraper 2020 empty_state).2 = inr outcome_2020 ∧
  trace (process_year portal_ten_lines main_scraper 2020 empty_state).1 =
    [ Log INFO "Downloading data for 2020...";
      HttpGet "https://portal.inmet.gov.br/uploads/dadoshistoricos/2020.zip";
      ReadCsv ";" "latin1" 8;
      WriteParquet "rio_a652_station_data/RJ_A652_2020.parquet";
      Log INFO "Successfully extracted Rio data for 2020" ] ∧
  fs (process_year portal_ten_lines main_scraper 2020 empty_state).1
    !! "rio_a652_station_data/RJ_A652_2020.parquet" = Some (ParquetFile table_10_skip_8) ∧
  table_10_skip_8 ≠ table_8.
Proof.
  repeat split; try (vm_compute; reflexivity). discriminate.
Qed.

Lemma parse_and_write_witness :
  process_year portal main_scraper 2020 empty_state =
    (mk_State (<["rio_a652_station_data/RJ_A652_2020.parquet" := ParquetFile table_8]> ∅)
       (trace empty_state ++
          [ Log INFO ("Downloading data for " +:+ str 2020 +:+ "...");
            HttpGet (archive_url main_scraper 2020);
            ReadCsv ";" "latin1" 8;
            WriteParquet (output_file main_scraper 2020);
            Log INFO ("Successfully extracted Rio data for " +:+ str 2020) ]),
     inr (mk_DownloadResult 2020 true (Some (output_file main_scraper 2020)) None)).
Proof.
  apply (parse_and_write portal main_scraper 2020 empty_state
           (mk_Response 200 "OK" (inr (String.list_byte_of_string "zip:2020")))
           (String.list_byte_of_string "zip:2020")
           (archive_2020 member_8) station_member [station_member +:+ ".bak"]
           member_8 table_8).
  - reflexivity.
  - reflexivity.
  - simpl. lia.
  - reflexivity.
  - reflexivity.
  - vm_compute. reflexivity.
  - vm_compute. reflexivity.
  - vm_compute. reflexivity.
  - reflexivity.
Defined.

Lemma outcome_exclusive_witness :
  (success outcome_2021 = true ↔ is_Some (file_path outcome_2021) ∧ error_message outcome_2021 = None) ∧
  (success outcome_2021 = false ↔ is_Some (error_message outcome_2021) ∧ file_path outcome_2021 = None) ∧
  (is_Some (file_path outcome_2021) ↔ error_message outcome_2021 = None).
Proof.
  apply (outcome_exclusive portal main_scraper 2021 empty_state
           (process_year portal main_scraper 2021 empty_state).1).
  vm_compute. reflexivity.
Defined.



Lemma no_station_data_witness :
  ∃ s', process_year portal main_scraper 2021 empty_state =
    (s', inr (mk_DownloadResult 2021 false None
                (Some ("No Rio de Janeiro A652 station data found for " +:+ str 2021)))) ∧
    fs s' = fs empty_state.
Proof.
  apply (no_station_data portal main_scraper 2021 empty_state
           (mk_Response 200 "OK" (inr (String.list_byte_of_string "zip:2021")))
           (String.list_byte_of_string "zip:2021") archive_2021).
  - reflexivity.
  - reflexivity.
  - simpl. lia.
  - reflexivity.
  - reflexivity.
  - vm_compute. reflexivity.
Defined.




Lemma empty_range_witness :
  process_all_years portal late_scraper empty_state = (empty_state, inr []).
Proof.
  apply (empty_range portal "rio_a652_station_data" 2030 empty_state
           (__init__ portal "rio_a652_station_data" 2030 empty_state).1 late_scraper empty_state).
  - vm_compute. reflexivity.
  - simpl. lia.
Defined.

(** ** The scenarios of a whole run *)

(** A run over 2019 to 2021: the first year is not found on the portal,
    the second is stored, the third has no file of the station. *)
Example run_2019_2021 :
  (process_all_years portal main_scraper empty_state).2 = inr [outcome_2019; outcome_2020; outcome_2021] ∧
  get_successful_downloads [outcome_2019; outcome_2020; outcome_2021] =
    [Some "rio_a652_station_data/RJ_A652_2020.parquet"] ∧
  (get_failed_downloads [outcome_2019; outcome_2020; outcome_2021]).*1 = [2019; 2021].
Proof. repeat split; vm_compute; reflexivity. Qed.

(** * Further properties of [process_year] *)



Lemma string_length_app (a b : string) :
  String.length (a +:+ b) = (String.length a + String.length b)%nat.
Proof.
  induction a as [|c a IH]; [done|].
  change (String.length (String c (a +:+ b)) = S (String.length a + String.length b)).
  simpl. by rewrite IH.
Qed.

Lemma string_app_inv_tail (a b t : string) : a +:+ t = b +:+ t → a = b.
Proof.
  revert b. induction a as [|c a IH]; intros [|d b] H; [done| | |].
  - apply (f_equal String.length) in H. rewrite !string_length_app in H. simpl in H. lia.
  - apply (f_equal String.length) in H. rewrite !string_length_app in H. simpl in H. lia.
  - change (String c (a +:+ t) = String d (b +:+ t)) in H.
    injection H as -> H. f_equal. by apply IH.
Qed.

(** The output path for every [output_dir]: the directory, a slash unless
    the directory is empty or brings its own, and the file name. *)
Lemma output_file_unfold self y :
  output_file self y =
    output_dir self +:+
      (if bool_decide (output_dir self = "") || endswith_sep (output_dir self) then "" else "/")
      +:+ "RJ_A652_" +:+ str y +:+ ".parquet".
Proof.
  unfold output_file, os_path_join. change (String.prefix "/" _) with false.
  by destruct (_ || _).
Qed.

Section Stages.

Context (w : World).

Lemma output_file_inj self y1 y2 :
  output_file self y1 = output_file self y2 → y1 = y2.
Proof.
  rewrite !output_file_unfold. intros H.
  do 2 apply (inj (String.app _)) in H.
  change (String.app "RJ_A652_" (str y1 +:+ ".parquet")
          = String.app "RJ_A652_" (str y2 +:+ ".parquet")) in H.
  apply (inj (String.app _)) in H. apply string_app_inv_tail in H.
  by apply (inj pretty) in H.
Qed.

(** X1.  Different years have different output paths, whatever the output
    directory: no two years ever share a file. *)
Theorem distinct_years_distinct_paths self y1 y2 :
  y1 ≠ y2 → output_file self y1 ≠ output_file self y2.
Proof. intros Hne Heq. by apply output_file_inj in Heq. Qed.

(** What one call adds to the trace: a request exactly when the file is
    absent, and at most one write. *)
Lemma process_year_events self y s :
  ∃ s' r new, process_year w self y s = (s', inr r) ∧
    trace s' = trace s ++ new ∧
    network_calls new =
      (if bool_decide (is_Some (fs s !! output_file self y)) then [] else [archive_url self y]) ∧
    (write_calls new = [] ∨
     write_calls new = [output_file self y] ∧ fs s !! output_file self y = None).
Proof.
  unfold_actions. unfold archive_url.
  destruct (bool_decide (is_Some (fs s !! output_file self y))) eqn:E.
  { eexists _, _, _. split; [reflexivity|]. split; [reflexivity|]. by split; [|left]. }
  apply bool_decide_eq_false in E. rewrite <- eq_None_not_Some in E.
  cbn -[String.append str].
  repeat case_match; simplify_eq/=; eexists _, _, _; (split; [reflexivity|]);
    rewrite <- ?(assoc_L (++)); (split; [reflexivity|]); (split; [reflexivity|]);
    solve [by left | by right].
Qed.

(** X2.  A call of [process_year] requests nothing but the archive of its
    year, once, and only when the output file is absent; it hands nothing
    to the parquet writer but the output path of its year, at most once,
    and never when the file is already there. *)
Theorem process_year_calls self y s s' r :
  process_year w self y s = (s', inr r) →
  ∃ new, trace s' = trace s ++ new ∧
    (is_Some (fs s !! output_file self y) → network_calls new = [] ∧ write_calls new = []) ∧
    (fs s !! output_file self y = None →
       network_calls new = [archive_url self y] ∧
       (write_calls new = [] ∨ write_calls new = [output_file self y])).
Proof.
  intros Hrun.
  destruct (process_year_events self y s) as (s1 & r1 & new & Hrun1 & Htrace & Hnet & Hwrite).
  rewrite Hrun in Hrun1. simplify_eq. exists new. split; [done|]. split.
  - intros Hfile. rewrite bool_decide_eq_true_2 in Hnet by done. split; [done|].
    destruct Hwrite as [? | [_ Hnone]]; [done|]. rewrite Hnone in Hfile. by destruct Hfile.
  - intros Hnone. rewrite bool_decide_eq_false_2 in Hnet by (rewrite Hnone; by intros [? ?]).
    split; [done|]. destruct Hwrite as [? | [? _]]; auto.
Qed.

(** X3.  A response with a status from 400 to 599 ends the call with the
    failure "Error downloading data for {year}: ...": the message is logged
    as an error, the body is not looked at and the filesystem is unchanged. *)
Theorem http_error_status self y s response :
  fs s !! output_file self y = None →
  requests_get w (downloading y s) (archive_url self y) = inr response →
  400 ≤ status_code response < 600 →
  ∃ detail,
    process_year w self y s =
      (mk_State (fs s)
         (trace s ++
            [ Log INFO ("Downloading data for " +:+ str y +:+ "...");
              HttpGet (archive_url self y);
              Log ERROR ("Error downloading data for " +:+ str y +:+ ": " +:+ detail) ]),
       inr (mk_DownloadResult y false None
              (Some ("Error downloading data for " +:+ str y +:+ ": " +:+ detail)))).
Proof.
  unfold downloading, archive_url. intros Hnone Hget Hstatus. unfold_actions.
  rewrite bool_decide_eq_false_2 by (rewrite Hnone; by intros [? ?]).
  cbn -[String.append str]. rewrite Hget.
  destruct (bool_decide (400 ≤ status_code response < 500)) eqn:E.
  - cbn -[String.append str]. eexists. rewrite <- !(assoc_L (++)). reflexivity.
  - apply bool_decide_eq_false in E. rewrite bool_decide_eq_true_2 by lia.
    cbn -[String.append str]. eexists. rewrite <- !(assoc_L (++)). reflexivity.
Qed.

(** X4.  An exception raised by [requests.get] ends the call with a failure
    whose message is the one the handler for its class builds, logged as
    an error; the filesystem is unchanged. *)
Theorem request_exception self y s e :
  fs s !! output_file self y = None →
  requests_get w (downloading y s) (archive_url self y) = inl e →
  process_year w self y s =
    (mk_State (fs s)
       (trace s ++
          [ Log INFO ("Downloading data for " +:+ str y +:+ "...");
            HttpGet (archive_url self y);
            Log ERROR (handler_message y e) ]),
     inr (mk_DownloadResult y false None (Some (handler_message y e)))).
Proof.
  unfold downloading, archive_url, handler_message. intros Hnone Hget. unfold_actions.
  rewrite bool_decide_eq_false_2 by (rewrite Hnone; by intros [? ?]).
  cbn -[String.append str]. rewrite Hget.
  destruct (exn_class e); cbn -[String.append str]; rewrite <- !(assoc_L (++)); reflexivity.
Qed.

(** X5.  When the body cannot be retrieved or is not an archive, the call
    ends with a failure whose message is the one the handler for the
    exception builds (for [BadZipFile]: "Error processing ZIP file for
    {year}: ..."), logged as an error; nothing is parsed or written. *)
Theorem bad_archive self y s response e :
  fs s !! output_file self y = None →
  requests_get w (downloading y s) (archive_url self y) = inr response →
  ¬ (400 ≤ status_code response < 600) →
  content response = inl e ∨
    (∃ payload, content response = inr payload ∧ zipfile_ZipFile w payload = inl e) →
  process_year w self y s =
    (mk_State (fs s)
       (trace s ++
          [ Log INFO ("Downloading data for " +:+ str y +:+ "...");
            HttpGet (archive_url self y);
            Log ERROR (handler_message y e) ]),
     inr (mk_DownloadResult y false None (Some (handler_message y e)))).
Proof.
  unfold downloading, archive_url, handler_message. intros Hnone Hget Hstatus Hbad.
  unfold_actions.
  rewrite bool_decide_eq_false_2 by (rewrite Hnone; by intros [? ?]).
  cbn -[String.append str]. rewrite Hget. rewrite !bool_decide_eq_false_2 by lia.
  destruct Hbad as [-> | (payload & -> & ->)];
    destruct (exn_class e); cbn -[String.append str]; rewrite <- !(assoc_L (++)); reflexivity.
Qed.


(** X7.  When the parquet writer raises, the call ends with a failure whose
    message is the one the handler for the exception builds, logged as an
    error; the filesystem is the one the writer left and no success is
    logged. *)
Theorem write_exception self y s response payload zip_ref station_file others f df files e :
  fs s !! output_file self y = None →
  requests_get w (downloading y s) (archive_url self y) = inr response →
  ¬ (400 ≤ status_code response < 600) →
  content response = inr payload →
  zipfile_ZipFile w payload = inr zip_ref →
  rio_files self zip_ref = station_file :: others →
  zip_open zip_ref station_file = inr f →
  pl_read_csv w f ";"%char "latin1" 8 = inr df →
  write_parquet w df (output_file self y) (fs s) = (files, Some e) →
  process_year w self y s =
    (mk_State files
       (trace s ++
          [ Log INFO ("Downloading data for " +:+ str y +:+ "...");
            HttpGet (archive_url self y);
            ReadCsv ";" "latin1" 8;
            WriteParquet (output_file self y);
            Log ERROR (handler_message y e) ]),
     inr (mk_DownloadResult y false None (Some (handler_message y e)))).
Proof.
  unfold downloading, archive_url, rio_files, handler_message.
  intros Hnone Hget Hstatus Hcontent Hzip Hfiles Hopen Hcsv Hwrite. unfold_actions.
  rewrite bool_decide_eq_false_2 by (rewrite Hnone; by intros [? ?]).
  cbn -[String.append str]. rewrite Hget. rewrite !bool_decide_eq_false_2 by lia.
  rewrite Hcontent, Hzip, Hfiles, Hopen. cbn -[String.append str].
  rewrite Hcsv. cbn -[String.append str]. rewrite Hwrite.
  destruct (exn_class e); cbn -[String.append str]; rewrite <- !(assoc_L (++)); reflexivity.
Qed.

End Stages.

Section Effects.

Context (w : World).



(** X9.  A success is never reported on the strength of a failed write:
    the outcome is a success only if the file was already there, and then
    the filesystem is untouched, or if the writer returned without error,
    and then the filesystem is the one it left. *)
Theorem success_means_stored self y s s' r :
  process_year w self y s = (s', inr r) →
  success r = true →
  (is_Some (fs s !! output_file self y) ∧ fs s' = fs s) ∨
  (fs s !! output_file self y = None ∧
   ∃ df, write_parquet w df (output_file self y) (fs s) = (fs s', None)).
Proof.
  intros Hrun Hok. destruct (fs s !! output_file self y) as [n|] eqn:E.
  - left. split; [done|].
    rewrite process_year_present in Hrun by (by rewrite E). by simplify_eq.
  - right. split; [done|].
    destruct (process_year_absent w self y s E) as (s1 & r1 & Hrun1 & Hr).
    rewrite Hrun in Hrun1. simplify_eq.
    destruct Hr as [[_ ?] | (m & -> & _)]; [done | discriminate Hok].
Qed.

(** X10.  If the parquet writer touches no path but the one it is given,
    [process_year] leaves every path other than the output path of its
    year as it was; in particular the files of all other years. *)
Theorem other_paths_untouched self y s s' r :
  (∀ df files files' o path,
     write_parquet w df (output_file self y) files = (files', o) →
     path ≠ output_file self y → files' !! path = files !! path) →
  process_year w self y s = (s', inr r) →
  (∀ path, path ≠ output_file self y → fs s' !! path = fs s !! path) ∧
  (∀ y', y' ≠ y → fs s' !! output_file self y' = fs s !! output_file self y').
Proof.
  intros Hlocal Hrun.
  assert (∀ path, path ≠ output_file self y → fs s' !! path = fs s !! path) as Hframe.
  { intros path Hne. destruct (fs s !! output_file self y) as [n|] eqn:E.
    - rewrite process_year_present in Hrun by (by rewrite E). by simplify_eq.
    - destruct (process_year_absent w self y s E) as (s1 & r1 & Hrun1 & Hr).
      rewrite Hrun in Hrun1. simplify_eq.
      destruct Hr as [[_ [df Hw]] | (m & _ & _ & [-> | (df & e & Hw)])];
        [by eapply Hlocal | done | by eapply Hlocal]. }
  split; [done|]. intros y' Hne. apply Hframe. intros Heq. by apply output_file_inj in Heq.
Qed.

(** X11.  The members [process_year] considers are those whose name has
    the station identifier somewhere inside it, directory part included,
    letter for letter; they keep the order of the archive. *)
Theorem rio_files_spec self zip_ref :
  (∀ name, name ∈ rio_files self zip_ref ↔
     name ∈ namelist zip_ref ∧
     ∃ before after, name = before +:+ station_identifier self +:+ after) ∧
  rio_files self zip_ref `sublist_of` namelist zip_ref.
Proof.
  unfold rio_files. split; [|apply sublist_filter].
  intros name. rewrite list_elem_of_filter, str_in_spec. tauto.
Qed.

End Effects.

(** * Further properties of the batch and of the summary *)

Section BatchEffects.

Context (w : World).





Lemma for_year_in_stored self years results s :
  (∀ y, y ∈ years → is_Some (fs s !! output_file self y)) →
  ∃ s', for_year_in w self years results s
          = (s', inr (results ++ (success_outcome self <$> years))) ∧
        fs s' = fs s ∧
        network_calls (trace s') = network_calls (trace s).
Proof.
  revert results s. induction years as [|y years IH]; intros results s Hall.
  { exists s. by rewrite app_nil_r. }
  pose proof (process_year_present w self y s (Hall y ltac:(left))) as Hrun.
  destruct (IH (results ++ [success_outcome self y])
              (mk_State (fs s)
                 (trace s ++ [Log INFO ("File for " +:+ str y +:+ " already exists, skipping...")])))
    as (s' & Hloop & Hfs & Hnet).
  { intros y' Hy'. apply Hall. by right. }
  exists s'. split; [|split; [done|]].
  - simpl. unfold mbind, M_bind. rewrite Hrun. fold (success_outcome self y).
    rewrite Hloop. by rewrite <- (assoc_L (++)).
  - rewrite Hnet. simpl. rewrite network_calls_app. simpl. by rewrite app_nil_r.
Qed.

(** X13.  A batch run over a range whose files are all on disk returns the
    success outcome of every year, in order, without a single request and
    without touching the filesystem. *)
Theorem rerun_fetches_nothing self s :
  (∀ y, start_year self ≤ y ≤ current_year self → is_Some (fs s !! output_file self y)) →
  ∃ s', process_all_years w self s =
          (s', inr (success_outcome self <$> range (start_year self) (current_year self + 1))) ∧
        fs s' = fs s ∧
        network_calls (trace s') = network_calls (trace s).
Proof.
  intros Hall. unfold process_all_years.
  apply (for_year_in_stored self _ [] s).
  intros y Hy. apply elem_of_range in Hy. apply Hall. lia.
Qed.


End BatchEffects.

(** X15.  On any list of outcomes, produced by [process_year] or not, no
    outcome is kept by both projections, and the ones kept by neither are
    the successes without a path and the failures without a message. *)
Theorem projections_account results :
  (length (get_successful_downloads results) + length (get_failed_downloads results) +
   length (filter (λ result, dropped result = true) results))%nat = length results.
Proof.
  unfold get_successful_downloads, get_failed_downloads, dropped. rewrite !length_fmap.
  induction results as [|r results IH]; [done|]. rewrite !filter_cons.
  destruct (success r), (truthy (file_path r)), (truthy (error_message r)); simpl; lia.
Qed.

Section Main.

Context (w : World).


(** X17.  When the output directory cannot be made, the exception leaves
    [main] uncaught: nothing is requested, logged or printed. *)
Theorem main_uncaught s files e :
  os_makedirs w "rio_a652_station_data" (fs s) = (files, Some e) →
  main w s = (mk_State files (trace s ++ [Makedirs "rio_a652_station_data"]), inl e).
Proof.
  intros Hmk. unfold main, __init__, emit, fs_call.
  unfold mbind, mret, M_bind, M_ret. cbn -[String.append str process_all_years].
  by rewrite Hmk.
Qed.

End Main.

(** * Further concrete runs *)

Lemma distinct_years_distinct_paths_witness :
  output_file main_scraper 2019 ≠ output_file main_scraper 2020.
Proof. apply (distinct_years_distinct_paths main_scraper 2019 2020). lia. Defined.

Lemma process_year_calls_witness :
  ∃ new, trace after_2020 = trace empty_state ++ new ∧
    (is_Some (fs empty_state !! output_file main_scraper 2020) →
       network_calls new = [] ∧ write_calls new = []) ∧
    (fs empty_state !! output_file main_scraper 2020 = None →
       network_calls new = [archive_url main_scraper 2020] ∧
       (write_calls new = [] ∨ write_calls new = [output_file main_scraper 2020])).
Proof.
  apply (process_year_calls portal main_scraper 2020 empty_state after_2020 outcome_2020).
  vm_compute. reflexivity.
Defined.

Lemma http_error_status_witness :
  ∃ detail,
    process_year portal main_scraper 2019 empty_state =
      (mk_State (fs empty_state)
         (trace empty_state ++
            [ Log INFO ("Downloading data for " +:+ str 2019 +:+ "...");
              HttpGet (archive_url main_scraper 2019);
              Log ERROR ("Error downloading data for " +:+ str 2019 +:+ ": " +:+ detail) ]),
       inr (mk_DownloadResult 2019 false None
              (Some ("Error downloading data for " +:+ str 2019 +:+ ": " +:+ detail)))).
Proof.
  apply (http_error_status portal main_scraper 2019 empty_state
           (mk_Response 404 "Not Found" (inr []))).
  - reflexivity.
  - reflexivity.
  - simpl. lia.
Defined.

Lemma request_exception_witness :
  process_year portal_down main_scraper 2020 empty_state =
    (mk_State (fs empty_state)
       (trace empty_state ++
          [ Log INFO ("Downloading data for " +:+ str 2020 +:+ "...");
            HttpGet (archive_url main_scraper 2020);
            Log ERROR (handler_message 2020 (mk_Exn RequestException "Connection refused")) ]),
     inr (mk_DownloadResult 2020 false None
            (Some (handler_message 2020 (mk_Exn RequestException "Connection refused"))))).
Proof.
  apply (request_exception portal_down main_scraper 2020 empty_state); reflexivity.
Defined.

Lemma bad_archive_witness :
  process_year portal_garbled main_scraper 2020 empty_state =
    (mk_State (fs empty_state)
       (trace empty_state ++
          [ Log INFO ("Downloading data for " +:+ str 2020 +:+ "...");
            HttpGet (archive_url main_scraper 2020);
            Log ERROR (handler_message 2020 (mk_Exn BadZipFile "File is not a zip file")) ]),
     inr (mk_DownloadResult 2020 false None
            (Some (handler_message 2020 (mk_Exn BadZipFile "File is not a zip file"))))).
Proof.
  apply (bad_archive portal_garbled main_scraper 2020 empty_state
           (mk_Response 200 "OK" (inr (String.list_byte_of_string "<html>")))).
  - reflexivity.
  - reflexivity.
  - simpl. lia.
  - right. exists (String.list_byte_of_string "<html>"). split; [reflexivity|].
    vm_compute. reflexivity.
Defined.


Lemma write_exception_witness :
  process_year portal_disk_full main_scraper 2020 empty_state =
    (mk_State (<[output_file main_scraper 2020 := Truncated]> ∅)
       (trace empty_state ++
          [ Log INFO ("Downloading data for " +:+ str 2020 +:+ "...");
            HttpGet (archive_url main_scraper 2020);
            ReadCsv ";" "latin1" 8;
            WriteParquet (output_file main_scraper 2020);
            Log ERROR (handler_message 2020
                         (mk_Exn OtherException "No space left on device (os error 28)")) ]),
     inr (mk_DownloadResult 2020 false None
            (Some (handler_message 2020
                     (mk_Exn OtherException "No space left on device (os error 28)"))))).
Proof.
  apply (write_exception portal_disk_full main_scraper 2020 empty_state
           (mk_Response 200 "OK" (inr (String.list_byte_of_string "zip:2020")))
           (String.list_byte_of_string "zip:2020")
           (archive_2020 member_8) station_member [station_member +:+ ".bak"]
           member_8 table_8).
  - reflexivity.
  - reflexivity.
  - simpl. lia.
  - reflexivity.
  - reflexivity.
  - vm_compute. reflexivity.
  - vm_compute. reflexivity.
  - vm_compute. reflexivity.
  - reflexivity.
Defined.


Lemma success_means_stored_witness :
  (is_Some (fs empty_state !! output_file main_scraper 2020) ∧ fs after_2020 = fs empty_state) ∨
  (fs empty_state !! output_file main_scraper 2020 = None ∧
   ∃ df, write_parquet portal df (output_file main_scraper 2020) (fs empty_state)
           = (fs after_2020, None)).
Proof.
  apply (success_means_stored portal main_scraper 2020 empty_state after_2020 outcome_2020).
  - vm_compute. reflexivity.
  - reflexivity.
Defined.

Lemma other_paths_untouched_witness :
  (∀ path, path ≠ output_file main_scraper 2020 →
     fs after_2020 !! path = fs empty_state !! path) ∧
  (∀ y', y' ≠ 2020 →
     fs after_2020 !! output_file main_scraper y' = fs empty_state !! output_file main_scraper y').
Proof.
  apply (other_paths_untouched portal main_scraper 2020 empty_state after_2020 outcome_2020).
  - intros df files files' o path Hw Hne. injection Hw as <- _.
    apply lookup_insert_ne. congruence.
  - vm_compute. reflexivity.
Defined.

Lemma rerun_fetches_nothing_witness :
  ∃ s', process_all_years portal main_scraper all_stored =
          (s', inr (success_outcome main_scraper <$> range 2019 (2021 + 1))) ∧
        fs s' = fs all_stored ∧
        network_calls (trace s') = network_calls (trace all_stored).
Proof.
  apply (rerun_fetches_nothing portal main_scraper all_stored).
  intros y Hy. simpl in Hy.
  assert (y = 2019 ∨ y = 2020 ∨ y = 2021) as [-> | [-> | ->]] by lia;
    vm_compute; eexists; reflexivity.
Defined.


Lemma main_uncaught_witness :
  main portal_readonly empty_state =
    (mk_State ∅ (trace empty_state ++ [Makedirs "rio_a652_station_data"]),
     inl (mk_Exn OtherException "[Errno 30] Read-only file system")).
Proof.
  apply (main_uncaught portal_readonly empty_state ∅). reflexivity.
Defined.

(** What [main] prints in the portal of the examples. *)
Example main_prints :
  (main portal empty_state).2 =
    inr [ String "010" "Processing Summary:";
          "Successfully processed: 1 files";
          "Failed processing: 2 files";
          String "010" "Failed years and reasons:";
          "2019: Error downloading data for 2019: 404 Client Error: Not Found for url: " +:+
            "https://portal.inmet.gov.br/uploads/dadoshistoricos/2019.zip";
          "2021: No Rio de Janeiro A652 station data found for 2021" ].
Proof. vm_compute. reflexivity. Qed.
